(** * Position ledger and take-profit / stop-loss rules of [test01.py]

    A shallow embedding of the functions [strategy], [take_profit],
    [stop_loss], [take_action] and [back_testing], statement by statement.

    Conventions of the model.
    - Numbers are binary64 floating point numbers ([spec_float] with
      precision 53 and maximal exponent 1024): sums, products and
      differences round as they do in the program, and NaN, the infinities
      and the two zeros are values.  [initial_money] is a Python float; the
      numeric columns of the position table hold floats.
    - A [pd.Series] is an association list in index order; a cell that was
      never assigned holds NaN.
    - The position table is a [DataFrame]: its column labels and its rows,
      in insertion order.
    - A routine that works on the position table is a function from the
      table to a result (a value or the exception raised) and the table as
      it is left.
    - [groupby('symbol')] lists the groups by sorted key; [agg mean] is the
      sum of a column over a group divided by the number of its rows;
      [apply(max, column='time')] calls [max(group, column='time')] once for
      every group.
    - [DataFrame.append] returns a new table and leaves its receiver as it
      is; [iloc[-1, k] = v] writes into the last row of the table. *)

From Stdlib Require Import ZArith QArith List String Bool Lia.
From Stdlib Require Import Floats.SpecFloat.
From Stdlib Require Import Sorted OrderedTypeEx.
Import ListNotations.

(** ** Numbers *)

Definition prec : Z := 53.
Definition emax : Z := 1024.

Definition float : Type := spec_float.

(** the float nearest to [m * 2 ^ e] *)
Definition of_Z (m e : Z) : float := binary_normalize prec emax m e false.

(** the float of an integer *)
Definition fz (n : Z) : float := of_Z n 0.

Definition nan : float := S754_nan.
Definition f0 : float := S754_zero false.
Definition f1 : float := fz 1.

Definition fadd : float -> float -> float := SFadd prec emax.
Definition fsub : float -> float -> float := SFsub prec emax.
Definition fmul : float -> float -> float := SFmul prec emax.
Definition fdiv : float -> float -> float := SFdiv prec emax.
Definition fabs : float -> float := SFabs.
Definition feqb : float -> float -> bool := SFeqb.
Definition fltb : float -> float -> bool := SFltb.

(** [0.3], [0.1] and [0.5] as the program reads them *)
Definition c03 : float := fdiv (fz 3) (fz 10).
Definition c01 : float := fdiv (fz 1) (fz 10).
Definition c05 : float := of_Z 1 (-1).

(** [np.sign] *)
Definition sign (x : float) : float :=
  if fltb x f0 then fz (-1)
  else if fltb f0 x then fz 1
  else if feqb x f0 then f0
  else x.

(** ** Exceptions *)

Inductive fault : Type :=
| TypeError
| ValueError
| KeyError (k : string)
| IndexError
| ZeroDivisionError.

Inductive result (A : Type) : Type :=
| Ok (a : A)
| Raise (e : fault).

Arguments Ok {A} a.
Arguments Raise {A} e.

Definition rbind {A B} (r : result A) (k : A -> result B) : result B :=
  match r with
  | Ok a => k a
  | Raise e => Raise e
  end.

(** ** Tables *)

Record Transaction : Type := mkTransaction {
  symbol : string;
  time : Z;
  transaction_price : float;
  transaction_direction : float;
  volume : float;
  latest_position : float
}.

Record DataFrame : Type := mkDataFrame {
  columns : list string;
  rows : list Transaction
}.

Definition position_columns : list string :=
  ["symbol"; "time"; "transaction price"; "transaction direction"; "volume";
   "latest position"]%string.

(** [pd.DataFrame(columns=cols)] *)
Definition empty_frame (cols : list string) : DataFrame :=
  mkDataFrame cols [].

Definition Series (A : Type) : Type := list (string * A).

(** [s[k]] *)
Fixpoint getitem {A} (s : Series A) (k : string) : result A :=
  match s with
  | [] => Raise (KeyError k)
  | (k', v) :: s' => if String.eqb k' k then Ok v else getitem s' k
  end.

(** [s[k] = v]: overwrites the cell of label [k], or enlarges the series *)
Fixpoint setitem {A} (s : Series A) (k : string) (v : A) : Series A :=
  match s with
  | [] => [(k, v)]
  | (k', v') :: s' =>
      if String.eqb k' k then (k', v) :: s' else (k', v') :: setitem s' k v
  end.

(** [pd.Series(index=idx)]: every cell is NaN *)
Definition empty_series (idx : list string) : Series float :=
  map (fun k => (k, nan)) idx.

Definition index {A} (s : Series A) : list string := map fst s.

(** A program that runs against the position table: it returns a value or
    raises, and hands back the table as it left it. *)
Definition M (A : Type) : Type := DataFrame -> result A * DataFrame.

Definition ret {A} (a : A) : M A := fun df => (Ok a, df).

Definition lift {A} (r : result A) : M A := fun df => (r, df).

Definition bind {A B} (m : M A) (k : A -> M B) : M B :=
  fun df =>
    match m df with
    | (Ok a, df') => k a df'
    | (Raise e, df') => (Raise e, df')
    end.

Definition get : M DataFrame := fun df => (Ok df, df).

Definition put (df : DataFrame) : M unit := fun _ => (Ok tt, df).

Declare Scope prog_scope.
Delimit Scope prog_scope with prog.
Notation "x <- m ;; k" := (bind m (fun x => k))
  (at level 61, m at next level, right associativity) : prog_scope.
Notation "m ;; k" := (bind m (fun _ => k))
  (at level 61, right associativity) : prog_scope.
Notation "x <~ r ;; k" := (rbind r (fun x => k))
  (at level 61, r at next level, right associativity) : prog_scope.

(** ** Grouping by symbol *)

Fixpoint insert_key (k : string) (ks : list string) : list string :=
  match ks with
  | [] => [k]
  | k' :: ks' =>
      match String.compare k k' with
      | Lt => k :: ks
      | Eq => ks
      | Gt => k' :: insert_key k ks'
      end
  end.

(** keys of [groupby('symbol')], sorted and without repetition *)
Definition group_keys (rs : list Transaction) : list string :=
  fold_right (fun r ks => insert_key (symbol r) ks) [] rs.

(** rows of one group, in table order *)
Definition group (rs : list Transaction) (k : string) : list Transaction :=
  filter (fun r => String.eqb (symbol r) k) rs.

(** the mean of a column over a group: the running sum of its cells divided
    by their number.  pandas adds the cells with a compensation term, which
    gives this same value whenever the running sum is exact, as it is for
    the ledgers below; the statements on arbitrary ledgers only use the
    keys of the table of averages. *)
Definition mean (xs : list float) : float :=
  fdiv (fold_left fadd xs f0) (fz (Z.of_nat (List.length xs))).

(** [group_by.agg({'transaction price': 'mean'})]: one line per group; the
    symbols are the index of this table, its only column is
    'transaction price' *)
Definition agg_mean_price (rs : list Transaction) : list (string * float) :=
  map (fun k => (k, mean (map transaction_price (group rs k))))
      (group_keys rs).

(** [max(g, column='time')]: the builtin [max] has no keyword [column] *)
Definition max_column_time (g : list Transaction) : result Transaction :=
  Raise TypeError.

(** the calls of [apply], one per group, in the order of the keys *)
Fixpoint apply_groups (gs : list (list Transaction))
  : result (list Transaction) :=
  match gs with
  | [] => Ok []
  | g :: gs' =>
      (r <~ max_column_time g ;;
       rs <~ apply_groups gs' ;;
       Ok (r :: rs))%prog
  end.

(** [group_by.apply(max, column='time')] *)
Definition apply_max_time (rs : list Transaction)
  : result (list Transaction) :=
  apply_groups (map (group rs) (group_keys rs)).

(** ** The two rules *)

Definition decisions : Type := Series float.

(** [average_transaction_price['symbol'][i]]: the table of averages has no
    column 'symbol' *)
Definition average_symbol (average : list (string * float)) (i : nat)
  : result string :=
  Raise (KeyError "symbol").

(** [latest['latest position'][i]] *)
Definition latest_position_at (latest : list Transaction) (i : nat)
  : result float :=
  match nth_error latest i with
  | Some r => Ok (latest_position r)
  | None => Raise IndexError
  end.

(** the truth value of a table of booleans, asked for by [if] and [elif]:
    pandas refuses to give one *)
Definition truth (test : list bool) : result bool := Raise ValueError.

(** [direction * (price - average_transaction_price)
     / average_transaction_price], cell by cell over the table of averages *)
Definition signed_returns (direction price : float)
  (average : list (string * float)) : list float :=
  map (fun a => fdiv (fmul direction (fsub price (snd a))) (snd a)) average.

(** body of the loop of [take_profit] (lines 34 to 42) *)
Definition take_profit_row (state : Series float)
  (average : list (string * float)) (latest : list Transaction)
  (tp : decisions) (i : nat) : result decisions :=
  (sym <~ average_symbol average i ;;
   l <~ latest_position_at latest i ;;
   let direction := sign l in
   price <~ getitem state sym ;;
   full <~ truth (map (fun r => fltb c03 r)
                      (signed_returns direction price average)) ;;
   if full then Ok (setitem tp sym (fmul direction (fz (-1))))
   else
     half <~ truth (map (fun r => fltb c01 r)
                        (signed_returns direction price average)) ;;
     if half then Ok (setitem tp sym (fmul direction (SFopp c05)))
     else Ok (setitem tp sym f0))%prog.

(** [for i in range(n)], the body threading the series *)
Fixpoint loop_range (body : decisions -> nat -> result decisions)
  (range : list nat) (out : decisions) : result decisions :=
  match range with
  | [] => Ok out
  | i :: range' =>
      (out' <~ body out i ;; loop_range body range' out')%prog
  end.

Definition take_profit (state : Series float) : M decisions :=
  (pos <- get ;;
   let average_transaction_price := agg_mean_price (rows pos) in
   latest <- lift (apply_max_time (rows pos)) ;;
   let tp := empty_series (index state) in
   lift (loop_range (take_profit_row state average_transaction_price latest)
                    (seq 0 (List.length average_transaction_price)) tp)
  )%prog.

(** body of the loop of [stop_loss] (lines 61 to 69) *)
Definition stop_loss_row (state : Series float)
  (average : list (string * float)) (latest : list Transaction)
  (sl : decisions) (i : nat) : result decisions :=
  (sym <~ average_symbol average i ;;
   l <~ latest_position_at latest i ;;
   let direction := sign l in
   price <~ getitem state sym ;;
   full <~ truth (map (fun r => fltb r (SFopp c03))
                      (signed_returns direction price average)) ;;
   if full then Ok (setitem sl sym (fmul direction (fz (-1))))
   else
     half <~ truth (map (fun r => fltb r (SFopp c01))
                        (signed_returns direction price average)) ;;
     if half then Ok (setitem sl sym (fmul direction (SFopp c05)))
     else Ok (setitem sl sym f0))%prog.

Definition stop_loss (state : Series float) : M decisions :=
  (pos <- get ;;
   let average_transaction_price := agg_mean_price (rows pos) in
   latest <- lift (apply_max_time (rows pos)) ;;
   let sl := empty_series (index state) in
   lift (loop_range (stop_loss_row state average_transaction_price latest)
                    (seq 0 (List.length average_transaction_price)) sl)
  )%prog.

(** ** Applying the decisions *)

(** [df.append(row, ignore_index=True)]: the value is a new table, [df]
    itself keeps its rows *)
Definition append (df : DataFrame) (r : Transaction) : DataFrame :=
  mkDataFrame (columns df) (rows df ++ [r]).

Definition set_transaction_price (v : float) (r : Transaction)
  : Transaction :=
  mkTransaction (symbol r) (time r) v (transaction_direction r) (volume r)
                (latest_position r).

Definition set_transaction_direction (v : float) (r : Transaction)
  : Transaction :=
  mkTransaction (symbol r) (time r) (transaction_price r) v (volume r)
                (latest_position r).

Definition set_volume (v : float) (r : Transaction) : Transaction :=
  mkTransaction (symbol r) (time r) (transaction_price r)
                (transaction_direction r) v (latest_position r).

Definition set_latest_position (v : float) (r : Transaction) : Transaction :=
  mkTransaction (symbol r) (time r) (transaction_price r)
                (transaction_direction r) (volume r) v.

(** [position.iloc[-1, :]] *)
Definition iloc_last : M Transaction :=
  (position <- get ;;
   match rev (rows position) with
   | [] => lift (Raise IndexError)
   | r :: _ => ret r
   end)%prog.

(** [position.iloc[-1, k] = v], the column [k] being chosen by [upd] *)
Definition iloc_last_set (upd : Transaction -> Transaction) : M unit :=
  (position <- get ;;
   match rev (rows position) with
   | [] => lift (Raise IndexError)
   | r :: before =>
       put (mkDataFrame (columns position) (rev before ++ [upd r]))
   end)%prog.

(** [d != 0]; NaN differs from every number *)
Definition nonzero (d : float) : bool := negb (feqb d f0).

(** the four assignments under [if pf != 0] (and under [if ls != 0]) *)
Definition close_out (d : float) (cur : Transaction) (state : Series float)
  : M unit :=
  (position <- get ;;
   let _ := append position cur in
   price <- lift (getitem state (symbol cur)) ;;
   iloc_last_set (set_transaction_price price) ;;
   r <- iloc_last ;;
   iloc_last_set
     (set_transaction_direction (fmul (fz (-1)) (sign (latest_position r)))) ;;
   r <- iloc_last ;;
   iloc_last_set (set_volume (fmul (latest_position r) (fabs d))) ;;
   r <- iloc_last ;;
   iloc_last_set
     (set_latest_position (fmul (latest_position r) (fadd f1 d))))%prog.

(** body of the loop of [take_action] (lines 88 to 103) *)
Definition take_action_row (profit loss : decisions) (state : Series float)
  (cur : Transaction) : M unit :=
  (pf <- lift (getitem profit (symbol cur)) ;;
   ls <- lift (getitem loss (symbol cur)) ;;
   (if nonzero pf then close_out pf cur state else ret tt) ;;
   (if nonzero ls then close_out ls cur state else ret tt))%prog.

Fixpoint for_each {A} (xs : list A) (body : A -> M unit) : M unit :=
  match xs with
  | [] => ret tt
  | x :: xs' => (body x ;; for_each xs' body)%prog
  end.

Definition take_action (profit loss : decisions) (state : Series float)
  : M unit :=
  (position <- get ;;
   current_pos <- lift (apply_max_time (rows position)) ;;
   for_each current_pos (take_action_row profit loss state))%prog.

(** ** The drivers *)

Definition strategy (pos : option DataFrame) : DataFrame :=
  match pos with
  | None => empty_frame position_columns
  | Some p => p
  end.

(** [all(s == 0)] *)
Definition all_zero (s : decisions) : bool :=
  forallb (fun kv => feqb (snd kv) f0) s.

Definition rule : Type := Series float -> M decisions.

(** body of the replay loop of [back_testing] *)
Definition tick (profit_str loss_str : rule) (state : Series float)
  : M unit :=
  (tp <- profit_str state ;;
   sl <- loss_str state ;;
   if negb (all_zero tp && all_zero sl) then take_action tp sl state
   else ret tt)%prog.

(** [data = pd.DataFrame()]: no price rows are read *)
Definition data : list (Series float) := [].

(** a NaN cell counts as 1 in the product of a row ([Series.prod] skips
    missing values) *)
Definition nan_to_one (x : float) : float :=
  match x with
  | S754_nan => f1
  | _ => x
  end.

(** [np.prod(positions.iloc[i, 2:5])]: price, direction and volume *)
Definition row_prod (r : Transaction) : float :=
  fmul (fmul (nan_to_one (transaction_price r))
             (nan_to_one (transaction_direction r)))
       (nan_to_one (volume r)).

(** [market_value] after the loop over the rows of [positions] *)
Definition market_value (initial_money : float) (rs : list Transaction)
  : float :=
  fold_left (fun mv r => fadd mv (fmul (fz (-1)) (row_prod r)))
            rs initial_money.

Definition is_nan (x : float) : bool :=
  match x with
  | S754_nan => true
  | _ => false
  end.

(** a row without a number in price, direction or volume: its product is
    the product of no factor, the integer 1 *)
Definition no_number (r : Transaction) : bool :=
  is_nan (transaction_price r) && is_nan (transaction_direction r)
  && is_nan (volume r).

(** [back_testing]; the arguments that only appear in the printed report
    ([symbols], [start], [end], [interval]) are left out.  The report
    divides [profit] by [initial_money].  As long as no row has added a
    number of the table, [market_value] and [profit] are Python floats,
    whose division by zero raises; once a row has, they are numpy floats,
    whose division by zero only warns. *)
Definition back_testing (initial_money : float) (profit_str loss_str : rule)
  (positions : option DataFrame) : result float * DataFrame :=
  let positions :=
    match positions with
    | None => empty_frame position_columns
    | Some p => p
    end in
  match for_each data (tick profit_str loss_str) positions with
  | (Raise e, positions') => (Raise e, positions')
  | (Ok _, positions') =>
      let mv := market_value initial_money (rows positions') in
      let profit := fsub mv initial_money in
      if forallb no_number (rows positions') && feqb initial_money f0
      then (Raise ZeroDivisionError, positions')
      else (Ok profit, positions')
  end.

(** ** Examples from the specification *)

Definition aapl : Transaction :=
  mkTransaction "AAPL" 1 (fz 100) (fz 1) (fz 10) (fz 10).

Definition ledger1 : DataFrame := mkDataFrame position_columns [aapl].

Definition snap (p : float) : Series float := [("AAPL"%string, p)].

(** a ledger of two symbols *)
Definition two_symbols : list Transaction :=
  [ mkTransaction "AAPL" 1 (fz 100) (fz 1) (fz 10) (fz 10);
    mkTransaction "MSFT" 2 (fz 50) (fz (-1)) (fz 5) (fz (-5));
    mkTransaction "AAPL" 3 (fz 120) (fz (-1)) (fz 4) (fz 6) ].

(** one purchase of one unit at 0.5 *)
Definition ledger_half : DataFrame :=
  mkDataFrame position_columns
    [mkTransaction "AAPL" 1 c05 (fz 1) (fz 1) (fz 1)].

(** ** The words of the specification *)

(** the rational number a finite float stands for *)
Definition exact (x : float) : option Q :=
  match x with
  | S754_zero _ => Some 0%Q
  | S754_finite s m e =>
      Some (inject_Z (if s then Z.neg m else Z.pos m) * Qpower 2 e)%Q
  | _ => None
  end.

(** the sum over the rows of [- (price * direction * volume)], as the
    specification writes it, in exact arithmetic; every cell is to be a
    finite number *)
Fixpoint exact_sum (rs : list Transaction) : option Q :=
  match rs with
  | [] => Some 0%Q
  | r :: rs' =>
      match exact (transaction_price r), exact (transaction_direction r),
            exact (volume r), exact_sum rs' with
      | Some p, Some d, Some v, Some q => Some (- (p * d * v) + q)%Q
      | _, _, _, _ => None
      end
  end.

(** the signed return [r = direction * (price - avg) / avg] of the
    specification for the symbol [s]: [avg] is the mean price of the rows
    of [s], [direction] the sign of the latest position of its last row;
    there is none when the ledger has no row of [s] or the snapshot no
    price for it *)
Definition spec_signed_return (rs : list Transaction) (state : Series float)
  (s : string) : option float :=
  match rev (group rs s), getitem state s with
  | last :: _, Ok price =>
      let avg := mean (map transaction_price (group rs s)) in
      Some (fdiv (fmul (sign (latest_position last)) (fsub price avg)) avg)
  | _, _ => None
  end.

(** ** Notions for the properties of the routines *)

(** a program that hands the table back as it received it, whether it
    returns or raises *)
Definition read_only {A} (m : M A) : Prop := forall df, snd (m df) = df.

(** [df'] has the columns of [df], the same rows except possibly the last
    one, and in every row the symbol and the time of [df] *)
Definition keeps_history (df df' : DataFrame) : Prop :=
  columns df' = columns df /\
  removelast (rows df') = removelast (rows df) /\
  map symbol (rows df') = map symbol (rows df) /\
  map time (rows df') = map time (rows df).

Definition preserves {A} (m : M A) : Prop :=
  forall df, keeps_history df (snd (m df)).

(** strict order of the group keys *)
Definition key_lt (a b : string) : Prop := String.compare a b = Lt.

(** a float that is a number other than zero *)
Definition finite_nonzero (x : float) : Prop :=
  match x with
  | S754_finite _ _ _ => True
  | _ => False
  end.

(** the outcome of the routines that group the ledger first *)
Definition outcome {A} (rs : list Transaction) (a : A) : result A :=
  match rs with
  | [] => Ok a
  | _ :: _ => Raise TypeError
  end.

(** ** Basic facts *)

Lemma getitem_empty_series (idx : list string) (k : string) :
  In k idx -> getitem (empty_series idx) k = Ok nan.
Proof.
  induction idx as [|k' idx IH]; simpl; [contradiction|].
  intros [->|H].
  - now rewrite String.eqb_refl.
  - destruct (String.eqb k' k); [reflexivity | now apply IH].
Qed.


Lemma insert_key_In (k x : string) (ks : list string) :
  In x (insert_key k ks) <-> x = k \/ In x ks.
Proof.
  induction ks as [|k' ks IH]; simpl.
  - intuition.
  - destruct (String.compare k k') eqn:E; simpl.
    + apply String.compare_eq_iff in E. subst k'. intuition.
    + intuition.
    + rewrite IH. intuition.
Qed.

Lemma group_keys_In (rs : list Transaction) (s : string) :
  In s (group_keys rs) <-> In s (map symbol rs).
Proof.
  induction rs as [|r rs IH]; simpl; [reflexivity|].
  rewrite insert_key_In, IH. intuition.
Qed.

(** a ledger with a row has a group *)
Lemma group_keys_cons (r : Transaction) (rs : list Transaction) :
  exists k ks, group_keys (r :: rs) = k :: ks.
Proof.
  assert (H : In (symbol r) (group_keys (r :: rs))).
  { apply group_keys_In. now left. }
  destruct (group_keys (r :: rs)) as [|k ks]; [contradiction | eauto].
Qed.

(** ** The call [group_by.apply(max, column='time')] *)

Lemma apply_max_time_outcome (rs : list Transaction) :
  apply_max_time rs = outcome rs [].
Proof.
  destruct rs as [|r rs]; [reflexivity|].
  unfold apply_max_time.
  destruct (group_keys_cons r rs) as (k & ks & ->). reflexivity.
Qed.

Lemma take_profit_outcome (state : Series float) (pos : DataFrame) :
  take_profit state pos
  = (outcome (rows pos) (empty_series (index state)), pos).
Proof.
  unfold take_profit, bind, get, lift. rewrite apply_max_time_outcome.
  destruct (rows pos); reflexivity.
Qed.

Lemma stop_loss_outcome (state : Series float) (pos : DataFrame) :
  stop_loss state pos
  = (outcome (rows pos) (empty_series (index state)), pos).
Proof.
  unfold stop_loss, bind, get, lift. rewrite apply_max_time_outcome.
  destruct (rows pos); reflexivity.
Qed.

Lemma take_action_outcome (profit loss : decisions) (state : Series float)
  (pos : DataFrame) :
  take_action profit loss state pos = (outcome (rows pos) tt, pos).
Proof.
  unfold take_action, bind, get, lift. rewrite apply_max_time_outcome.
  destruct (rows pos); reflexivity.
Qed.

Lemma tick_outcome (state : Series float) (pos : DataFrame) :
  tick take_profit stop_loss state pos = (outcome (rows pos) tt, pos).
Proof.
  unfold tick, bind. rewrite take_profit_outcome, stop_loss_outcome.
  destruct (rows pos) as [|r rs] eqn:E; simpl; [|reflexivity].
  destruct (negb _); [|reflexivity].
  rewrite take_action_outcome, E. reflexivity.
Qed.

(** ** Who writes to the ledger *)

Lemma read_only_get : read_only get.
Proof. intro df. reflexivity. Qed.

Lemma read_only_lift {A} (r : result A) : read_only (lift r).
Proof. intro df. reflexivity. Qed.

Lemma read_only_bind {A B} (m : M A) (k : A -> M B) :
  read_only m -> (forall a, read_only (k a)) -> read_only (bind m k).
Proof.
  intros Hm Hk df. unfold bind. specialize (Hm df).
  destruct (m df) as [[a|e] df']; simpl in Hm; subst df'.
  - apply Hk.
  - reflexivity.
Qed.

Lemma read_only_take_profit (state : Series float) :
  read_only (take_profit state).
Proof.
  unfold take_profit. apply read_only_bind; [exact read_only_get|].
  intro pos. cbv zeta. apply read_only_bind; [apply read_only_lift|].
  intro latest. apply read_only_lift.
Qed.

Lemma read_only_stop_loss (state : Series float) :
  read_only (stop_loss state).
Proof.
  unfold stop_loss. apply read_only_bind; [exact read_only_get|].
  intro pos. cbv zeta. apply read_only_bind; [apply read_only_lift|].
  intro latest. apply read_only_lift.
Qed.

(** ** The rules and the applier on a ledger with a row *)

(** C1, on the code: the ledger of one row (AAPL, price 100, direction 1,
    volume 10, position 10), priced at 131, with the take-profit decision
    -1 and the stop-loss decision 0.  The call raises [TypeError] when it
    groups the ledger (line 85) and hands the ledger back with its one row
    as it was: no transaction is appended. *)
Theorem take_action_appends_nothing :
  nonzero (fz (-1)) = true /\
  take_action [("AAPL"%string, fz (-1))] [("AAPL"%string, f0)]
              (snap (fz 131)) ledger1
  = (Raise TypeError, ledger1).
Proof. split; reflexivity. Qed.

(** C2, on the code: the same ledger priced at 131.  The average price of
    AAPL is 100, positive, and its latest position is not 0.  The signed
    return of the specification is above 0.3, so the decision should be -1;
    the call raises [TypeError] when it looks for the latest rows (line 29)
    and returns no decision. *)
Theorem take_profit_raises_on_example :
  agg_mean_price (rows ledger1) = [("AAPL"%string, fz 100)] /\
  fltb f0 (fz 100) = true /\
  nonzero (latest_position aapl) = true /\
  (exists r, spec_signed_return (rows ledger1) (snap (fz 131)) "AAPL"
             = Some r /\ fltb c03 r = true) /\
  take_profit (snap (fz 131)) ledger1 = (Raise TypeError, ledger1).
Proof.
  repeat split. eexists. split; reflexivity.
Qed.

(** C3, on the code: the same ledger priced at 85.  The average price of
    AAPL is 100, positive, and its latest position is not 0.  The signed
    return of the specification is below -0.1 and not below -0.3, so the
    decision should be -0.5; the call raises [TypeError] (line 56) and
    returns no decision. *)
Theorem stop_loss_raises_on_example :
  agg_mean_price (rows ledger1) = [("AAPL"%string, fz 100)] /\
  fltb f0 (fz 100) = true /\
  nonzero (latest_position aapl) = true /\
  (exists r, spec_signed_return (rows ledger1) (snap (fz 85)) "AAPL"
             = Some r /\
             fltb r (SFopp c01) = true /\ fltb r (SFopp c03) = false) /\
  stop_loss (snap (fz 85)) ledger1 = (Raise TypeError, ledger1).
Proof.
  repeat split. eexists. repeat split; reflexivity.
Qed.

(** C4, on the code: the same ledger, with a take-profit and a stop-loss
    decision of -0.5 each for AAPL.  Both decisions are non-zero, so two
    rows should be added; the call raises [TypeError] (line 85) and the
    ledger still has its one row. *)
Theorem take_action_both_fire :
  nonzero (SFopp c05) = true /\
  take_action [("AAPL"%string, SFopp c05)] [("AAPL"%string, SFopp c05)]
              (snap (fz 131)) ledger1
  = (Raise TypeError, ledger1) /\
  List.length (rows ledger1) = 1%nat.
Proof. repeat split. Qed.

(** C6, on the code: the ledger of two symbols.  The table of averages is
    built (110 for AAPL, 50 for MSFT), the table of latest rows is not: the
    call of line 29 raises [TypeError], and with it both rules. *)
Theorem aggregation_raises :
  agg_mean_price two_symbols
  = [("AAPL"%string, fz 110); ("MSFT"%string, fz 50)] /\
  apply_max_time two_symbols = Raise TypeError /\
  fst (take_profit [("AAPL"%string, fz 120); ("MSFT"%string, fz 50)]
                   (mkDataFrame position_columns two_symbols))
  = Raise TypeError /\
  fst (stop_loss [("AAPL"%string, fz 120); ("MSFT"%string, fz 50)]
                 (mkDataFrame position_columns two_symbols))
  = Raise TypeError.
Proof. repeat split. Qed.

(** C9, on the code: for every ledger and snapshot, [take_profit] and
    [stop_loss] hand the ledger back exactly as they received it, whether
    they return or raise; but [take_action], the routine that is to append,
    appends nothing either: it too hands every ledger back as it received
    it, and on the ledger of one row with the take-profit decision -1 it
    raises [TypeError] and the ledger is left with its one row. *)
Theorem rules_leave_ledger_unchanged :
  (forall state pos, snd (take_profit state pos) = pos) /\
  (forall state pos, snd (stop_loss state pos) = pos) /\
  (forall profit loss state pos,
      snd (take_action profit loss state pos) = pos) /\
  nonzero (fz (-1)) = true /\
  take_action [("AAPL"%string, fz (-1))] [("AAPL"%string, f0)]
              (snap (fz 131)) ledger1
  = (Raise TypeError, ledger1).
Proof.
  split; [|split; [|split; [|split]]].
  - intros state pos. apply read_only_take_profit.
  - intros state pos. apply read_only_stop_loss.
  - intros profit loss state pos. now rewrite take_action_outcome.
  - reflexivity.
  - reflexivity.
Qed.

(** ** The empty ledger *)

(** C5, as amended. For the empty ledger and any snapshot, the aggregation
    yields no entry, [take_profit] and [stop_loss] return the series over
    the symbols of the snapshot with every cell missing (NaN, not 0), and
    [take_action] returns with the ledger as it was. *)
Theorem empty_ledger_behaviour (cols : list string) (state : Series float) :
  agg_mean_price (rows (empty_frame cols)) = [] /\
  apply_max_time (rows (empty_frame cols)) = Ok [] /\
  take_profit state (empty_frame cols)
    = (Ok (empty_series (index state)), empty_frame cols) /\
  stop_loss state (empty_frame cols)
    = (Ok (empty_series (index state)), empty_frame cols) /\
  (forall s, In s (index state) ->
             getitem (empty_series (index state)) s = Ok nan) /\
  (forall profit loss,
      take_action profit loss state (empty_frame cols)
      = (Ok tt, empty_frame cols)).
Proof.
  repeat split; try reflexivity.
  intros s Hs. now apply getitem_empty_series.
Qed.

(** C5, as stated, fails: on the empty ledger and the snapshot that
    prices AAPL at 100, the decision of [take_profit] for AAPL is not 0. *)
Lemma empty_ledger_decision_not_zero :
  ~ (forall (state : Series float) (s : string),
        In s (index state) ->
        exists tp d,
          fst (take_profit state (empty_frame position_columns)) = Ok tp /\
          getitem tp s = Ok d /\ feqb d f0 = true).
Proof.
  intro H.
  destruct (H (snap (fz 100)) "AAPL"%string (or_introl eq_refl))
    as (tp & d & Etp & Ed & Hz).
  vm_compute in Etp. injection Etp as <-. vm_compute in Ed.
  injection Ed as <-. discriminate Hz.
Qed.

(** C10. [strategy] returns a table it is given unchanged, and without a
    table it returns the empty ledger whose columns are exactly symbol,
    time, transaction price, transaction direction, volume and latest
    position. *)
Theorem strategy_identity_or_empty :
  (forall pos, strategy (Some pos) = pos) /\
  rows (strategy None) = [] /\
  columns (strategy None)
  = ["symbol"; "time"; "transaction price"; "transaction direction";
     "volume"; "latest position"]%string /\
  List.length (columns (strategy None)) = 6%nat.
Proof.
  repeat split.
Qed.

(** ** The backtest driver *)

Lemma for_each_nil {A} (body : A -> M unit) (df : DataFrame) :
  for_each [] body df = (Ok tt, df).
Proof. reflexivity. Qed.

Lemma fsub_diag (x : float) : finite_nonzero x -> fsub x x = f0.
Proof.
  destruct x as [s| s| |s m e]; simpl; try contradiction. intros _.
  unfold fsub, SFsub. cbv zeta. rewrite Z.sub_diag. reflexivity.
Qed.

Lemma feqb_finite_nonzero (x : float) : finite_nonzero x -> feqb x f0 = false.
Proof.
  destruct x as [s| s| |s m e]; simpl; try contradiction. intros _.
  now destruct s.
Qed.

Lemma back_testing_unfold (initial_money : float)
  (profit_str loss_str : rule) (positions : option DataFrame) :
  back_testing initial_money profit_str loss_str positions
  = (if forallb no_number (rows (strategy positions))
        && feqb initial_money f0
     then Raise ZeroDivisionError
     else Ok (fsub (market_value initial_money (rows (strategy positions)))
                   initial_money),
     strategy positions).
Proof.
  unfold back_testing, data, strategy. rewrite for_each_nil. cbv zeta.
  destruct (forallb no_number _ && feqb initial_money f0); reflexivity.
Qed.

(** C7, as amended. For every ledger and every initial money,
    [back_testing] returns the binary64 value of
    [(initial_money + t1 + ... + tn) - initial_money], the sum being taken
    row by row in ledger order with
    [ti = -1 * (price * direction * volume)] of row [i] (a cell that is
    NaN is skipped by the product), provided the initial money is not 0 or
    some row holds a number.  With an empty ledger, or none, the profit is
    0 when the initial money is a finite number other than 0, and the call
    raises [ZeroDivisionError] when the initial money is 0. *)
Theorem back_testing_profit (initial_money : float)
  (profit_str loss_str : rule) :
  (forall positions,
      feqb initial_money f0 = false \/
      forallb no_number (rows positions) = false ->
      back_testing initial_money profit_str loss_str (Some positions)
      = (Ok (fsub (fold_left
                     (fun mv r => fadd mv (fmul (fz (-1)) (row_prod r)))
                     (rows positions) initial_money)
                  initial_money),
         positions)) /\
  (finite_nonzero initial_money ->
   (forall positions,
       rows positions = [] ->
       back_testing initial_money profit_str loss_str (Some positions)
       = (Ok f0, positions)) /\
   back_testing initial_money profit_str loss_str None
   = (Ok f0, empty_frame position_columns)) /\
  (feqb initial_money f0 = true ->
   (forall positions,
       rows positions = [] ->
       back_testing initial_money profit_str loss_str (Some positions)
       = (Raise ZeroDivisionError, positions)) /\
   back_testing initial_money profit_str loss_str None
   = (Raise ZeroDivisionError, empty_frame position_columns)).
Proof.
  split; [|split].
  - intros positions H. rewrite back_testing_unfold. simpl strategy.
    replace (forallb no_number (rows positions) && feqb initial_money f0)
      with false; [reflexivity|].
    destruct H as [-> | ->]; [now rewrite andb_false_r | reflexivity].
  - intro Hmoney. split; [intros positions E|];
      rewrite back_testing_unfold; simpl strategy; [rewrite E|]; simpl;
      now rewrite (feqb_finite_nonzero _ Hmoney), (fsub_diag _ Hmoney).
  - intro Hzero. split; [intros positions E|];
      rewrite back_testing_unfold; simpl strategy; [rewrite E|]; simpl;
      now rewrite Hzero.
Qed.

(** C7, as stated, fails: with an initial money of 10^16 and the ledger of
    one purchase of one unit at 0.5, the returned profit is 0, while the
    sum over the rows of [- (price * direction * volume)] is -1/2. *)
Lemma back_testing_profit_rounds :
  ~ (forall (initial_money : float) (profit_str loss_str : rule)
            (positions : DataFrame) (profit : float),
        back_testing initial_money profit_str loss_str (Some positions)
        = (Ok profit, positions) ->
        exists q q',
          exact profit = Some q /\ exact_sum (rows positions) = Some q' /\
          (q == q')%Q).
Proof.
  intro H.
  destruct (H (fz (10 ^ 16)) take_profit stop_loss ledger_half f0 eq_refl)
    as (q & q' & Eq & Eq' & Hqq).
  vm_compute in Eq. injection Eq as <-.
  vm_compute in Eq'. injection Eq' as <-.
  vm_compute in Hqq. discriminate Hqq.
Qed.

(** with no ledger and no money the report divides 0 by 0 *)
Example back_testing_zero_money :
  back_testing f0 take_profit stop_loss None
  = (Raise ZeroDivisionError, empty_frame position_columns).
Proof. reflexivity. Qed.

(** with the ledger of one row and no money the call returns *)
Example back_testing_zero_money_one_row :
  back_testing f0 take_profit stop_loss (Some ledger1)
  = (Ok (fz (-1000)), ledger1).
Proof. reflexivity. Qed.

(** ** The decisions of the two rules *)




(** ** What [take_action] and the replay keep of the ledger *)

Lemma keeps_history_refl (df : DataFrame) : keeps_history df df.
Proof. repeat split. Qed.

Lemma keeps_history_trans (a b c : DataFrame) :
  keeps_history a b -> keeps_history b c -> keeps_history a c.
Proof.
  intros (H1 & H2 & H3 & H4) (K1 & K2 & K3 & K4).
  repeat split; congruence.
Qed.

Lemma preserves_read_only {A} (m : M A) : read_only m -> preserves m.
Proof. intros H df. rewrite H. apply keeps_history_refl. Qed.

Lemma preserves_bind {A B} (m : M A) (k : A -> M B) :
  preserves m -> (forall a, preserves (k a)) -> preserves (bind m k).
Proof.
  intros Hm Hk df. unfold bind. specialize (Hm df).
  destruct (m df) as [[a|e] df']; simpl in *.
  - eapply keeps_history_trans; [exact Hm | apply Hk].
  - exact Hm.
Qed.

Lemma rows_rev_cons (df : DataFrame) (r : Transaction) before :
  rev (rows df) = r :: before -> rows df = rev before ++ [r].
Proof.
  intro E. rewrite <- (rev_involutive (rows df)), E. reflexivity.
Qed.

Lemma preserves_iloc_last_set (upd : Transaction -> Transaction) :
  (forall r, symbol (upd r) = symbol r /\ time (upd r) = time r) ->
  preserves (iloc_last_set upd).
Proof.
  intros Hupd df. unfold iloc_last_set, bind, get, put, lift. simpl.
  destruct (rev (rows df)) as [|r before] eqn:E; simpl.
  - apply keeps_history_refl.
  - apply rows_rev_cons in E. unfold keeps_history. simpl. rewrite E.
    rewrite !removelast_last, !map_app. simpl.
    destruct (Hupd r) as [-> ->]. auto.
Qed.

Lemma preserves_iloc_last : preserves iloc_last.
Proof.
  apply preserves_read_only. intro df.
  unfold iloc_last, bind, get, lift, ret. simpl.
  destruct (rev (rows df)); reflexivity.
Qed.

Lemma preserves_lift {A} (r : result A) : preserves (lift r).
Proof. apply preserves_read_only, read_only_lift. Qed.

Lemma preserves_ret {A} (a : A) : preserves (ret a).
Proof. intro df. apply keeps_history_refl. Qed.

Lemma preserves_close_out (d : float) (cur : Transaction)
  (state : Series float) : preserves (close_out d cur state).
Proof.
  unfold close_out.
  apply preserves_bind; [apply preserves_read_only, read_only_get|].
  intros position. cbv zeta.
  apply preserves_bind; [apply preserves_lift | intros price].
  apply preserves_bind; [now apply preserves_iloc_last_set | intros _].
  apply preserves_bind; [apply preserves_iloc_last | intros r1].
  apply preserves_bind; [now apply preserves_iloc_last_set | intros _].
  apply preserves_bind; [apply preserves_iloc_last | intros r2].
  apply preserves_bind; [now apply preserves_iloc_last_set | intros _].
  apply preserves_bind; [apply preserves_iloc_last | intros r3].
  now apply preserves_iloc_last_set.
Qed.

Lemma preserves_take_action_row (profit loss : decisions)
  (state : Series float) (cur : Transaction) :
  preserves (take_action_row profit loss state cur).
Proof.
  unfold take_action_row.
  apply preserves_bind; [apply preserves_lift | intros pf].
  apply preserves_bind; [apply preserves_lift | intros ls].
  apply preserves_bind; [|intros _].
  - destruct (nonzero pf); [apply preserves_close_out | apply preserves_ret].
  - destruct (nonzero ls); [apply preserves_close_out | apply preserves_ret].
Qed.

Lemma preserves_for_each {A} (xs : list A) (body : A -> M unit) :
  (forall x, preserves (body x)) -> preserves (for_each xs body).
Proof.
  intro Hbody. induction xs as [|x xs IH]; simpl.
  - apply preserves_ret.
  - apply preserves_bind; [apply Hbody | intros _; exact IH].
Qed.

Lemma preserves_take_action (profit loss : decisions) (state : Series float) :
  preserves (take_action profit loss state).
Proof.
  unfold take_action.
  apply preserves_bind; [apply preserves_read_only, read_only_get|].
  intros position.
  apply preserves_bind; [apply preserves_lift | intros current_pos].
  apply preserves_for_each. intro cur. apply preserves_take_action_row.
Qed.

Lemma keeps_history_length (df df' : DataFrame) :
  keeps_history df df' -> List.length (rows df') = List.length (rows df).
Proof.
  intros (_ & _ & Hsym & _).
  rewrite <- (length_map symbol), Hsym. apply length_map.
Qed.

Lemma preserves_tick (state : Series float) :
  preserves (tick take_profit stop_loss state).
Proof.
  unfold tick.
  apply preserves_bind;
    [apply preserves_read_only, read_only_take_profit | intros tp].
  apply preserves_bind;
    [apply preserves_read_only, read_only_stop_loss | intros sl].
  destruct (negb (all_zero tp && all_zero sl));
    [apply preserves_take_action | apply preserves_ret].
Qed.

(** X1. Whatever the decisions and the snapshot, and whether it returns or
    raises, [take_action] leaves the columns, every row but the last, and
    the symbol and the time of every row as they were; in particular the
    number of rows does not change. *)
Theorem take_action_keeps_history (profit loss : decisions)
  (state : Series float) (pos : DataFrame) :
  keeps_history pos (snd (take_action profit loss state pos)) /\
  List.length (rows (snd (take_action profit loss state pos)))
  = List.length (rows pos).
Proof.
  pose proof (preserves_take_action profit loss state pos) as H.
  split; [exact H | now apply keeps_history_length].
Qed.

(** X2. Replaying any sequence of snapshots through the loop body of
    [back_testing], with [take_profit] and [stop_loss] as the two
    strategies, never adds or removes a row, never changes a row other than
    the last one, and never changes the symbol or the time of a row, whether
    the replay completes or raises on the way. *)
Theorem replay_keeps_history (snapshots : list (Series float))
  (pos : DataFrame) :
  keeps_history pos
    (snd (for_each snapshots (tick take_profit stop_loss) pos)) /\
  List.length
    (rows (snd (for_each snapshots (tick take_profit stop_loss) pos)))
  = List.length (rows pos).
Proof.
  assert (H : preserves (for_each snapshots (tick take_profit stop_loss)))
    by (apply preserves_for_each; exact preserves_tick).
  split; [apply H | apply keeps_history_length, H].
Qed.

(** ** The keys of the table of averages *)

Lemma key_lt_trans (a b c : string) : key_lt a b -> key_lt b c -> key_lt a c.
Proof.
  unfold key_lt. intros H1 H2.
  apply String_as_OT.cmp_lt in H1. apply String_as_OT.cmp_lt in H2.
  apply String_as_OT.cmp_lt. exact (String_as_OT.lt_trans _ _ _ H1 H2).
Qed.

Lemma key_lt_irrefl (a : string) : ~ key_lt a a.
Proof.
  unfold key_lt. intro H. apply String_as_OT.cmp_lt in H.
  exact (String_as_OT.lt_not_eq _ _ H eq_refl).
Qed.

Lemma key_gt_lt (a b : string) : String.compare a b = Gt -> key_lt b a.
Proof.
  unfold key_lt. intro H. rewrite String.compare_antisym, H. reflexivity.
Qed.

Lemma insert_key_sorted (k : string) (ks : list string) :
  StronglySorted key_lt ks -> StronglySorted key_lt (insert_key k ks).
Proof.
  induction 1 as [|k' ks Hs IH Hall]; simpl.
  - repeat constructor.
  - destruct (String.compare k k') eqn:E.
    + now constructor.
    + constructor; [now constructor|]. constructor; [exact E|].
      eapply Forall_impl; [|exact Hall]. intros x Hx.
      now apply key_lt_trans with k'.
    + constructor; [exact IH|]. apply Forall_forall. intros x Hx.
      apply insert_key_In in Hx. destruct Hx as [->|Hx].
      * now apply key_gt_lt.
      * rewrite Forall_forall in Hall. now apply Hall.
Qed.

Lemma group_keys_sorted (rs : list Transaction) :
  StronglySorted key_lt (group_keys rs).
Proof.
  induction rs as [|r rs IH]; simpl; [constructor | now apply insert_key_sorted].
Qed.

Lemma sorted_NoDup (ks : list string) : StronglySorted key_lt ks -> NoDup ks.
Proof.
  induction 1 as [|k ks Hs IH Hall]; constructor; [|exact IH].
  intro Hin. rewrite Forall_forall in Hall.
  exact (key_lt_irrefl k (Hall k Hin)).
Qed.

(** X3. The table of averages that both rules build first has one line per
    distinct symbol of the ledger, in strictly ascending order of the
    symbols; the table of latest rows that should stand beside it is never
    built for a ledger with a row. *)
Theorem aggregated_tables_aligned (rs : list Transaction) :
  map fst (agg_mean_price rs) = group_keys rs /\
  StronglySorted key_lt (group_keys rs) /\
  NoDup (group_keys rs) /\
  (forall s, In s (group_keys rs) <-> In s (map symbol rs)) /\
  apply_max_time rs
  = match rs with [] => Ok [] | _ :: _ => Raise TypeError end.
Proof.
  split; [|split; [|split; [|split]]].
  - unfold agg_mean_price. rewrite map_map. simpl. apply map_id.
  - apply group_keys_sorted.
  - apply sorted_NoDup, group_keys_sorted.
  - intro s. apply group_keys_In.
  - rewrite apply_max_time_outcome. now destruct rs.
Qed.

(** ** The outcome of every call *)

(** X4. Whatever the decisions and the snapshot, [take_action] returns
    exactly when the ledger has no row, and then does nothing; on a ledger
    with a row it raises [TypeError] (line 85) before it reads a decision
    or a price, and the ledger is handed back as it was. *)
Theorem take_action_returns_iff_empty (profit loss : decisions)
  (state : Series float) (pos : DataFrame) :
  take_action profit loss state pos
  = (match rows pos with [] => Ok tt | _ :: _ => Raise TypeError end, pos) /\
  (fst (take_action profit loss state pos) = Ok tt <-> rows pos = []).
Proof.
  rewrite take_action_outcome. destruct (rows pos); simpl.
  - repeat split; auto.
  - repeat split; discriminate.
Qed.

(** X7. Whatever the snapshot, priced or not, [take_profit] and [stop_loss]
    return exactly when the ledger has no row, and then with the series of
    NaN over the symbols of the snapshot; on a ledger with a row both raise
    [TypeError] (lines 29 and 56) and return no decision; the ledger is
    handed back as it was in either case. *)
Theorem rules_return_iff_empty (state : Series float) (pos : DataFrame) :
  take_profit state pos
  = (match rows pos with
     | [] => Ok (empty_series (index state))
     | _ :: _ => Raise TypeError
     end, pos) /\
  stop_loss state pos
  = (match rows pos with
     | [] => Ok (empty_series (index state))
     | _ :: _ => Raise TypeError
     end, pos) /\
  ((exists tp, fst (take_profit state pos) = Ok tp) <-> rows pos = []) /\
  ((exists sl, fst (stop_loss state pos) = Ok sl) <-> rows pos = []).
Proof.
  rewrite take_profit_outcome, stop_loss_outcome.
  destruct (rows pos); simpl.
  - repeat split; eauto.
  - repeat split; try discriminate; intros [x H]; discriminate H.
Qed.

Lemma replay_outcome (snapshots : list (Series float)) : forall pos,
  for_each snapshots (tick take_profit stop_loss) pos
  = (match snapshots with
     | [] => Ok tt
     | _ :: _ => outcome (rows pos) tt
     end, pos).
Proof.
  induction snapshots as [|state snapshots IH]; intro pos; [reflexivity|].
  simpl. unfold bind. rewrite tick_outcome.
  destruct (rows pos) as [|r rs] eqn:E; simpl; [|reflexivity].
  rewrite IH, E. now destruct snapshots.
Qed.

(** X9. A tick of the loop of [back_testing] returns exactly when the
    ledger has no row, and raises [TypeError] otherwise; so the replay of a
    non-empty sequence of snapshots on a ledger with a row stops at its
    first tick, and every replay hands the ledger back exactly as it was. *)
Theorem replay_stops_at_first_tick (snapshots : list (Series float))
  (state : Series float) (pos : DataFrame) :
  tick take_profit stop_loss state pos
  = (match rows pos with [] => Ok tt | _ :: _ => Raise TypeError end, pos) /\
  for_each snapshots (tick take_profit stop_loss) pos
  = (match snapshots, rows pos with
     | _ :: _, _ :: _ => Raise TypeError
     | _, _ => Ok tt
     end, pos).
Proof.
  rewrite tick_outcome, replay_outcome.
  destruct snapshots, (rows pos); repeat split.
Qed.

(** X14. [back_testing] never runs the two strategies and never changes
    the ledger: its result is the same for any two other strategies.  The
    only exception it raises is [ZeroDivisionError], from the division in
    the report, and only when the initial money is 0 and no row holds a
    number in price, direction or volume.  With no row in the ledger it
    raises exactly when the initial money is 0; with a number in some row
    it returns for every initial money, 0 included. *)
Theorem back_testing_outcome (initial_money : float)
  (profit_str loss_str : rule) (positions : option DataFrame) :
  snd (back_testing initial_money profit_str loss_str positions)
  = strategy positions /\
  (forall profit_str' loss_str',
      back_testing initial_money profit_str' loss_str' positions
      = back_testing initial_money profit_str loss_str positions) /\
  (forall e,
      fst (back_testing initial_money profit_str loss_str positions)
      = Raise e ->
      e = ZeroDivisionError /\ feqb initial_money f0 = true /\
      forallb no_number (rows (strategy positions)) = true) /\
  (rows (strategy positions) = [] ->
   ((exists e, fst (back_testing initial_money profit_str loss_str positions)
               = Raise e)
    <-> feqb initial_money f0 = true)) /\
  (forallb no_number (rows (strategy positions)) = false ->
   exists profit,
     fst (back_testing initial_money profit_str loss_str positions)
     = Ok profit).
Proof.
  split; [now rewrite back_testing_unfold|].
  split; [intros a b; now rewrite !back_testing_unfold|].
  rewrite back_testing_unfold. simpl fst.
  split; [|split].
  - intros e H.
    destruct (forallb no_number _); destruct (feqb initial_money f0);
      simpl in H; try discriminate H.
    injection H as <-. auto.
  - intros ->. simpl.
    destruct (feqb initial_money f0); split;
      try (intros [e H]; discriminate H); try discriminate; eauto.
  - intros ->. simpl. eauto.
Qed.

(** ** The theorems at concrete ledgers *)

Lemma back_testing_profit_witness :
  (back_testing (fz 1000) take_profit stop_loss (Some ledger1)
   = (Ok (fz (-1000)), ledger1) /\
   back_testing (fz 1000) take_profit stop_loss None
   = (Ok f0, empty_frame position_columns)) /\
  (back_testing f0 take_profit stop_loss (Some ledger1)
   = (Ok (fz (-1000)), ledger1) /\
   back_testing f0 take_profit stop_loss None
   = (Raise ZeroDivisionError, empty_frame position_columns)).
Proof.
  split.
  - destruct (back_testing_profit (fz 1000) take_profit stop_loss)
      as (Hsome & Hempty & _).
    split.
    + rewrite (Hsome ledger1 (or_introl eq_refl)). reflexivity.
    + exact (proj2 (Hempty I)).
  - destruct (back_testing_profit f0 take_profit stop_loss)
      as (Hsome & _ & Hzero).
    split.
    + rewrite (Hsome ledger1 (or_intror eq_refl)). reflexivity.
    + exact (proj2 (Hzero eq_refl)).
Defined.

